(** * ISO_4162: the accessor over table [tamano_llaves] of [tornillos.db]

    A shallow embedding of [src/tamano_llaves.py] (class [DatosTamanoLlaves])
    and the properties of its lazily cached table and of its lookups. *)

From Stdlib Require Import PrimFloat.
From stdpp Require Import gmap strings list.

Open Scope string_scope.
Open Scope list_scope.

(** ** Python values and exceptions *)

(** What a cell of the table holds, and what [Series.item()] hands back:
    a [str], a [float], or [None] for an SQL NULL in a text column. *)
Inductive scalar : Type :=
  | Str (s : string)
  | Float (x : float)
  | NoneVal.

(** What an accessor returns: a Python list of cells, or one cell. *)
Inductive pyobj : Type :=
  | PList (l : list scalar)
  | PScalar (x : scalar).

(** An exception is told apart by its class, as [except] does; the
    argument is kept for the message or the missing key. *)
Record exn : Type := Raise { exn_class : string; exn_arg : string }.

Definition ValueError : exn :=
  Raise "ValueError" "can only convert an array of size 1 to a Python scalar".

Definition KeyError (key : string) : exn := Raise "KeyError" key.

(** ** The pandas objects the accessor touches *)

(** A [Series] is used for its values only. *)
Abbreviation Series := (list scalar).

(** A [DataFrame]: the length of its index and its labelled columns. *)
Record DataFrame : Type := mkDataFrame {
  index_len : nat;
  data : gmap string Series
}.

(** The shape invariant pandas keeps for every frame it builds: each
    column is as long as the index. *)
Definition DataFrame_wf (df : DataFrame) : Prop :=
  ∀ (col : string) (s : Series), data df !! col = Some s → length s = index_len df.

(** [df[col]] *)
Definition getitem (df : DataFrame) (col : string) : exn + Series :=
  match data df !! col with
  | Some s => inr s
  | None => inl (KeyError col)
  end.

(** [s.to_list()] *)
Definition to_list (s : Series) : list scalar := s.

(** One comparison of [s == metrica]: a cell that is no [str] compares
    unequal to a [str]. *)
Definition cell_eq (metrica : string) (c : scalar) : bool :=
  match c with
  | Str x => String.eqb x metrica
  | _ => false
  end.

(** [s == metrica], element by element. *)
Definition series_eq (s : Series) (metrica : string) : list bool :=
  map (cell_eq metrica) s.

(** The values of [s] at the positions where the mask holds. *)
Fixpoint select (mask : list bool) (s : Series) : Series :=
  match mask, s with
  | b :: mask', x :: s' => if b then x :: select mask' s' else select mask' s'
  | _, _ => []
  end.

(** [df.loc[mask, col]] *)
Definition loc (df : DataFrame) (mask : list bool) (col : string) : exn + Series :=
  match data df !! col with
  | Some s => inr (select mask s)
  | None => inl (KeyError col)
  end.

(** [s.item()]: the only element, [ValueError] for any other size. *)
Definition item (s : Series) : exn + scalar :=
  match s with
  | [x] => inr x
  | _ => inl ValueError
  end.

(** [df.loc[df['Métrica'] == metrica, col].item()], the expression the
    two scalar lookups share. *)
Definition loc_item (df : DataFrame) (metrica col : string) : exn + scalar :=
  match getitem df "Métrica" with
  | inr s =>
      match loc df (series_eq s metrica) col with
      | inr sel => item sel
      | inl e => inl e
      end
  | inl e => inl e
  end.

(** The number of cells of [s] equal to [metrica]: how many rows a
    lookup key matches. *)
Definition n_matches (metrica : string) (s : Series) : nat :=
  length (filter (λ c, cell_eq metrica c = true) s).

Arguments n_matches : simpl never.

(** Row [i] of a frame, as [df.iloc[i].to_dict()] shows it: the cell of
    every column at position [i]. *)
Definition row_at (df : DataFrame) (i : nat) : gmap string scalar :=
  omap (λ s : Series, s !! i) (data df).

(** ** The instance and the world around it *)

(** The fields [__init__] sets. The fifth one, [sql_pd], holds the
    class [SQLitePandasDF] and is never assigned again: it is the loader
    [sql_to_df] the section below takes as a parameter. *)
Record DatosTamanoLlaves : Type := mkDatos {
  ruta_datos : string;
  tornillos_db : string;
  tabla : string;
  _df_cache : option DataFrame
}.

Section Accessor.

(** [str(Paths.data)], from [src.utils.paths]. *)
Variable Paths_data : string.

(** What [SQLitePandasDF(path, table).sql_to_df()] reads from: the
    files on disk, which may change between two reads. *)
Variable World : Type.

(** [SQLitePandasDF(path, table).sql_to_df()], from
    [src.utils.sqlitepandasdf]: it yields a frame or raises. *)
Variable sql_to_df : string → string → World → (exn + DataFrame) * World.

(** The running program: the instance, the world, and the log of the
    calls made to the loader (store location, table name). *)
Record State : Type := mkState {
  self : DatosTamanoLlaves;
  world : World;
  loads : list (string * string)
}.

(** Computations that read and write the state and may raise. *)
Definition M (A : Type) : Type := State → (exn + A) * State.

#[global] Instance M_ret : MRet M := λ A (a : A) st, (inr a, st).

(** Sequencing: an exception skips the rest, the state written so far
    stays. *)
#[global] Instance M_bind : MBind M := λ A B (k : A → M B) (m : M A) st,
  match m st with
  | (inr a, st') => k a st'
  | (inl e, st') => (inl e, st')
  end.

Definition lift {A} (r : exn + A) : M A := λ st, (r, st).

Definition get_self : M DatosTamanoLlaves := λ st, (inr (self st), st).

(** [DatosTamanoLlaves()] *)
Definition __init__ : DatosTamanoLlaves :=
  {| ruta_datos := Paths_data +:+ "\";
     tornillos_db := "tornillos.db";
     tabla := "tamano_llaves";
     _df_cache := None |}.

(** [self.sql_pd(path, table).sql_to_df()], logged. *)
Definition sql_pd (path table : string) : M DataFrame :=
  λ st, let '(r, w) := sql_to_df path table (world st) in
        (r, {| self := self st; world := w; loads := loads st ++ [(path, table)] |}).

(** [self._df_cache = df] *)
Definition set_df_cache (df : DataFrame) : M unit :=
  λ st, (inr (),
         {| self := {| ruta_datos := ruta_datos (self st);
                       tornillos_db := tornillos_db (self st);
                       tabla := tabla (self st);
                       _df_cache := Some df |};
            world := world st; loads := loads st |}).

(** [_load_dataframe]: the loader is called only when the cache slot is
    [None]; its frame is stored in the slot and returned. *)
Definition _load_dataframe : M DataFrame :=
  me ← get_self;
  match _df_cache me with
  | None =>
      df ← sql_pd (ruta_datos me +:+ tornillos_db me) (tabla me);
      _ ← set_df_cache df;
      mret df
  | Some df => mret df
  end.

Definition metricas : M (list scalar) :=
  df ← _load_dataframe;
  s ← lift (getitem df "Métrica");
  mret (to_list s).

Definition diametros_nominales : M (list scalar) :=
  df ← _load_dataframe;
  s ← lift (getitem df "dnom_mm");
  mret (to_list s).

Definition diametro_nominal (metrica : string) : M scalar :=
  df ← _load_dataframe;
  s ← lift (getitem df "Métrica");
  sel ← lift (loc df (series_eq s metrica) "dnom_mm");
  lift (item sel).

Definition tamanos_llave : M (list scalar) :=
  df ← _load_dataframe;
  s ← lift (getitem df "s_mm");
  mret (to_list s).

Definition tamano_llave (metrica : string) : M scalar :=
  df ← _load_dataframe;
  s ← lift (getitem df "Métrica");
  sel ← lift (loc df (series_eq s metrica) "s_mm");
  lift (item sel).

(** The public accessors, as a client calls them. *)
Inductive call : Type :=
  | Metricas
  | DiametrosNominales
  | DiametroNominal (metrica : string)
  | TamanosLlave
  | TamanoLlave (metrica : string).

Definition run_call (c : call) : M pyobj :=
  match c with
  | Metricas => l ← metricas; mret (PList l)
  | DiametrosNominales => l ← diametros_nominales; mret (PList l)
  | DiametroNominal metrica => x ← diametro_nominal metrica; mret (PScalar x)
  | TamanosLlave => l ← tamanos_llave; mret (PList l)
  | TamanoLlave metrica => x ← tamano_llave metrica; mret (PScalar x)
  end.

(** What a call answers on the frame the load hands it. *)
Definition answer (c : call) (df : DataFrame) : exn + pyobj :=
  match c with
  | Metricas => sum_map id PList (getitem df "Métrica")
  | DiametrosNominales => sum_map id PList (getitem df "dnom_mm")
  | DiametroNominal metrica => sum_map id PScalar (loc_item df metrica "dnom_mm")
  | TamanosLlave => sum_map id PList (getitem df "s_mm")
  | TamanoLlave metrica => sum_map id PScalar (loc_item df metrica "s_mm")
  end.

(** A client that makes the calls one after the other on the same
    instance and goes on after an exception. *)
Fixpoint run_calls (cs : list call) (st : State) : list (exn + pyobj) * State :=
  match cs with
  | [] => ([], st)
  | c :: cs' =>
      let '(r, st1) := run_call c st in
      let '(rs, st2) := run_calls cs' st1 in
      (r :: rs, st2)
  end.

(** The script under [if __name__ == '__main__'], up to the three columns
    it hands to [PrettyTable.add_column]: a new instance, then
    [metricas()], [diametros_nominales()] and [tamanos_llave()]. *)
Definition main_columns : M (list scalar * list scalar * list scalar) :=
  metricas_ ← metricas;
  diametros ← diametros_nominales;
  llaves ← tamanos_llave;
  mret (metricas_, diametros, llaves).

End Accessor.

Arguments mkState {World}.
Arguments self {World}.
Arguments world {World}.
Arguments loads {World}.
Arguments sql_pd {World}.
Arguments set_df_cache {World}.
Arguments _load_dataframe {World}.
Arguments metricas {World}.
Arguments diametros_nominales {World}.
Arguments diametro_nominal {World}.
Arguments tamanos_llave {World}.
Arguments tamano_llave {World}.
Arguments run_call {World}.
Arguments run_calls {World}.
Arguments main_columns {World}.


(** ** Sample tables, for the concrete runs *)

Definition frame_of (metrica dnom s : Series) : DataFrame :=
  {| index_len := length metrica;
     data := <["Métrica" := metrica]> (<["dnom_mm" := dnom]> (<["s_mm" := s]> ∅)) |}.

(** Four rows of the table; the wrench size of M7 is not known. *)
Definition sample_df : DataFrame :=
  frame_of [Str "M5"; Str "M6"; Str "M7"; Str "M8"]
           [Float 5; Float 6; Float 7; Float 8]
           [Float 8; Float 10; Float 0; Float 13].

(** A table that breaks the uniqueness of the key: M8 is there twice. *)
Definition duplicated_df : DataFrame :=
  frame_of [Str "M6"; Str "M8"; Str "M8"]
           [Float 6; Float 8; Float 8]
           [Float 10; Float 13; Float 13].

(** A disk that holds one table: the loader hands it out for the right
    file and table, and raises for any other. *)
Definition sample_sql_to_df (path table : string) (disk : DataFrame)
  : (exn + DataFrame) * DataFrame :=
  if bool_decide (path = "C:\datos\tornillos.db" ∧ table = "tamano_llaves")
  then (inr disk, disk)
  else (inl (Raise "DatabaseError" table), disk).

(** The instance as [DatosTamanoLlaves()] leaves it, before any call. *)
Definition sample_init (disk : DataFrame) : State DataFrame :=
  mkState (__init__ "C:\datos") disk [].

(** The same instance once the table is in its cache: one load logged. *)
Definition sample_loaded (disk : DataFrame) : State DataFrame :=
  mkState (mkDatos "C:\datos\" "tornillos.db" "tamano_llaves" (Some disk)) disk
          [("C:\datos\tornillos.db", "tamano_llaves")].

(** A loader that plays a script: each read hands out the next outcome
    of the list, a frame or an exception; a script that has run out
    raises. *)
Definition scripted_sql_to_df (path table : string) (script : list (exn + DataFrame))
  : (exn + DataFrame) * list (exn + DataFrame) :=
  match script with
  | r :: script' => (r, script')
  | [] => (inl (Raise "OperationalError" path), [])
  end.

(** A table that has lost its key column. *)
Definition keyless_df : DataFrame :=
  {| index_len := 2;
     data := <["dnom_mm" := [Float 5; Float 6]]> (<["s_mm" := [Float 8; Float 10]]> ∅) |}.

(** A table with the key column and no other. *)
Definition keys_only_df : DataFrame :=
  {| index_len := 2; data := <["Métrica" := [Str "M5"; Str "M6"]]> ∅ |}.

(** ** Selecting by a mask *)

Lemma n_matches_cons metrica c s :
  n_matches metrica (c :: s) =
  (if cell_eq metrica c then S (n_matches metrica s) else n_matches metrica s).
Proof.
  unfold n_matches. rewrite filter_cons.
  destruct (cell_eq metrica c); case_decide; simpl; congruence.
Qed.

Lemma cell_eq_Str metrica : cell_eq metrica (Str metrica) = true.
Proof. apply String.eqb_refl. Qed.

(** When the column read is at least as long as the key column, the
    selection has one value per matching row. *)
Lemma length_select metrica (key val : Series) :
  (length key ≤ length val)%nat →
  length (select (series_eq key metrica) val) = n_matches metrica key.
Proof.
  revert val. induction key as [|c key IH]; intros [|v val] Hlen; simpl in *;
    [reflexivity | reflexivity | lia | ].
  rewrite n_matches_cons. destruct (cell_eq metrica c); simpl; rewrite IH; lia.
Qed.

(** No matching row, nothing selected, whatever the column read. *)
Lemma select_no_match metrica (key val : Series) :
  n_matches metrica key = 0 → select (series_eq key metrica) val = [].
Proof.
  revert val. induction key as [|c key IH]; intros val; simpl.
  - by destruct val.
  - rewrite n_matches_cons. destruct (cell_eq metrica c); [done |].
    intros Hn. destruct val; [done | by apply IH].
Qed.

Lemma no_match_lookup metrica (key : Series) i c :
  n_matches metrica key = 0 → key !! i = Some c → cell_eq metrica c = false.
Proof.
  revert i. induction key as [|c0 key IH]; intros [|i]; simpl; try done.
  - rewrite n_matches_cons. intros H [= ->]. destruct (cell_eq metrica c); done.
  - rewrite n_matches_cons. destruct (cell_eq metrica c0); [done | eauto].
Qed.

(** One matching row, at position [i]: the selection is the value at [i]. *)
Lemma select_unique metrica (key val : Series) i c v :
  n_matches metrica key = 1 → key !! i = Some c → cell_eq metrica c = true →
  val !! i = Some v →
  select (series_eq key metrica) val = [v].
Proof.
  revert val i. induction key as [|c0 key IH]; intros [|v0 val] [|i]; simpl; try done.
  - rewrite n_matches_cons. intros Hn [= ->] Hc [= ->]. rewrite Hc in Hn |- *.
    f_equal. apply select_no_match. lia.
  - rewrite n_matches_cons. intros Hn Hi Hc Hv.
    destruct (cell_eq metrica c0) eqn:Hc0.
    + assert (cell_eq metrica c = false) by (eapply no_match_lookup; [|done]; lia).
      congruence.
    + eauto.
Qed.

Lemma item_singleton (s : Series) x : s = [x] → item s = inr x.
Proof. by intros ->. Qed.

Lemma item_ValueError (s : Series) : length s ≠ 1 → item s = inl ValueError.
Proof. destruct s as [|x [|y s]]; simpl; done. Qed.

(** ** The scalar lookup on a frame *)

Lemma getitem_Some df col (s : Series) : getitem df col = inr s ↔ data df !! col = Some s.
Proof. unfold getitem. destruct (data df !! col); naive_solver. Qed.

Lemma loc_item_eq df metrica col (key val : Series) :
  data df !! "Métrica" = Some key → data df !! col = Some val →
  loc_item df metrica col = item (select (series_eq key metrica) val).
Proof. intros Hk Hv. unfold loc_item, getitem, loc. by rewrite Hk, Hv. Qed.

(** Exactly one matching row: the lookup returns the cell of that row. *)
Lemma loc_item_unique df metrica col (key val : Series) i v :
  data df !! "Métrica" = Some key → data df !! col = Some val →
  n_matches metrica key = 1 → key !! i = Some (Str metrica) → val !! i = Some v →
  loc_item df metrica col = inr v.
Proof.
  intros Hk Hv Hn Hi Hvi. rewrite (loc_item_eq _ _ _ _ _ Hk Hv).
  apply item_singleton. eapply select_unique; eauto using cell_eq_Str.
Qed.

(** Any other number of matching rows: [item] raises [ValueError]. *)
Lemma loc_item_ValueError df metrica col (key val : Series) :
  DataFrame_wf df →
  data df !! "Métrica" = Some key → data df !! col = Some val →
  n_matches metrica key ≠ 1 →
  loc_item df metrica col = inl ValueError.
Proof.
  intros Hwf Hk Hv Hn. rewrite (loc_item_eq _ _ _ _ _ Hk Hv).
  apply item_ValueError. rewrite length_select; [done |].
  by rewrite (Hwf _ _ Hk), (Hwf _ _ Hv).
Qed.

(** No matching row: [ValueError], whatever the shape of the frame. *)
Lemma loc_item_no_match df metrica col (key val : Series) :
  data df !! "Métrica" = Some key → data df !! col = Some val →
  n_matches metrica key = 0 →
  loc_item df metrica col = inl ValueError.
Proof.
  intros Hk Hv Hn. rewrite (loc_item_eq _ _ _ _ _ Hk Hv).
  by rewrite select_no_match.
Qed.

Lemma lookup_row_at df i col (s : Series) :
  data df !! col = Some s → row_at df i !! col = s !! i.
Proof. intros H. unfold row_at. by rewrite lookup_omap, H. Qed.

(** ** The load and the cache *)

Section Properties.

Context {World : Type}.
Context (sql_to_df : string → string → World → (exn + DataFrame) * World).

Implicit Types (st : State World) (df : DataFrame) (metrica : string).

Lemma load_cached st df :
  _df_cache (self st) = Some df → _load_dataframe sql_to_df st = (inr df, st).
Proof.
  intros Hc. unfold _load_dataframe, mbind, M_bind, get_self. by rewrite Hc.
Qed.

Lemma load_fresh st :
  _df_cache (self st) = None →
  _load_dataframe sql_to_df st =
  let path := ruta_datos (self st) +:+ tornillos_db (self st) in
  let log := loads st ++ [(path, tabla (self st))] in
  match sql_to_df path (tabla (self st)) (world st) with
  | (inr df, w) =>
      (inr df, mkState (mkDatos (ruta_datos (self st)) (tornillos_db (self st))
                                (tabla (self st)) (Some df)) w log)
  | (inl e, w) => (inl e, mkState (self st) w log)
  end.
Proof.
  intros Hc. unfold _load_dataframe, mbind, M_bind, get_self, sql_pd. rewrite Hc. simpl.
  by destruct (sql_to_df _ _ _) as [[e|df] w].
Qed.

(** What a load that returns has done. *)
Lemma load_returns st df st1 :
  _load_dataframe sql_to_df st = (inr df, st1) →
  _df_cache (self st1) = Some df ∧
  ruta_datos (self st1) = ruta_datos (self st) ∧
  tornillos_db (self st1) = tornillos_db (self st) ∧
  tabla (self st1) = tabla (self st) ∧
  ((_df_cache (self st) = Some df ∧ st1 = st) ∨
   (_df_cache (self st) = None ∧
    loads st1 = loads st ++ [(ruta_datos (self st) +:+ tornillos_db (self st), tabla (self st))])).
Proof.
  destruct (_df_cache (self st)) as [df0|] eqn:Hc.
  - rewrite (load_cached _ _ Hc). intros [= <- <-]. auto 10.
  - rewrite (load_fresh _ Hc). simpl.
    destruct (sql_to_df _ _ _) as [[e|df1] w]; intros [= <- <-]; simpl; auto 10.
Qed.

(** A load that raises stores nothing. *)
Lemma load_raises st e st1 :
  _load_dataframe sql_to_df st = (inl e, st1) →
  _df_cache (self st) = None ∧ self st1 = self st ∧
  loads st1 = loads st ++ [(ruta_datos (self st) +:+ tornillos_db (self st), tabla (self st))].
Proof.
  destruct (_df_cache (self st)) as [df0|] eqn:Hc.
  - by rewrite (load_cached _ _ Hc).
  - rewrite (load_fresh _ Hc). simpl.
    destruct (sql_to_df _ _ _) as [[e1|df1] w]; intros [= <- <-]; simpl; auto.
Qed.

Lemma load_again st df st1 :
  _load_dataframe sql_to_df st = (inr df, st1) →
  _load_dataframe sql_to_df st1 = (inr df, st1).
Proof. intros H. apply load_cached. by apply load_returns in H as [? _]. Qed.

(** ** The accessors, read through the load *)

Lemma metricas_eq st :
  metricas sql_to_df st =
  match _load_dataframe sql_to_df st with
  | (inr df, st1) => (getitem df "Métrica", st1)
  | (inl e, st1) => (inl e, st1)
  end.
Proof.
  unfold metricas, mbind, M_bind, lift, mret, M_ret, to_list.
  destruct (_load_dataframe _ _) as [[e|df] st1]; [done |].
  by destruct (getitem df _).
Qed.

Lemma diametros_nominales_eq st :
  diametros_nominales sql_to_df st =
  match _load_dataframe sql_to_df st with
  | (inr df, st1) => (getitem df "dnom_mm", st1)
  | (inl e, st1) => (inl e, st1)
  end.
Proof.
  unfold diametros_nominales, mbind, M_bind, lift, mret, M_ret, to_list.
  destruct (_load_dataframe _ _) as [[e|df] st1]; [done |].
  by destruct (getitem df _).
Qed.

Lemma tamanos_llave_eq st :
  tamanos_llave sql_to_df st =
  match _load_dataframe sql_to_df st with
  | (inr df, st1) => (getitem df "s_mm", st1)
  | (inl e, st1) => (inl e, st1)
  end.
Proof.
  unfold tamanos_llave, mbind, M_bind, lift, mret, M_ret, to_list.
  destruct (_load_dataframe _ _) as [[e|df] st1]; [done |].
  by destruct (getitem df _).
Qed.

Lemma diametro_nominal_eq metrica st :
  diametro_nominal sql_to_df metrica st =
  match _load_dataframe sql_to_df st with
  | (inr df, st1) =>
      (loc_item df metrica "dnom_mm", st1)
  | (inl e, st1) => (inl e, st1)
  end.
Proof.
  unfold diametro_nominal, loc_item, mbind, M_bind, lift.
  destruct (_load_dataframe _ _) as [[e|df] st1]; [done |].
  destruct (getitem df _); [done |]. by destruct (loc df _ _).
Qed.

Lemma tamano_llave_eq metrica st :
  tamano_llave sql_to_df metrica st =
  match _load_dataframe sql_to_df st with
  | (inr df, st1) =>
      (loc_item df metrica "s_mm", st1)
  | (inl e, st1) => (inl e, st1)
  end.
Proof.
  unfold tamano_llave, loc_item, mbind, M_bind, lift.
  destruct (_load_dataframe _ _) as [[e|df] st1]; [done |].
  destruct (getitem df _); [done |]. by destruct (loc df _ _).
Qed.

(** A column accessor that returns has loaded, or found cached, a frame
    with that column. *)
Lemma metricas_returns st ms st1 :
  metricas sql_to_df st = (inr ms, st1) →
  ∃ df, _load_dataframe sql_to_df st = (inr df, st1) ∧ data df !! "Métrica" = Some ms.
Proof.
  rewrite metricas_eq. destruct (_load_dataframe _ _) as [[e|df] st']; [done |].
  intros [= Hg <-]. exists df. by apply getitem_Some in Hg.
Qed.

Lemma diametros_nominales_returns st ds st1 :
  diametros_nominales sql_to_df st = (inr ds, st1) →
  ∃ df, _load_dataframe sql_to_df st = (inr df, st1) ∧ data df !! "dnom_mm" = Some ds.
Proof.
  rewrite diametros_nominales_eq. destruct (_load_dataframe _ _) as [[e|df] st']; [done |].
  intros [= Hg <-]. exists df. by apply getitem_Some in Hg.
Qed.

Lemma tamanos_llave_returns st ss st1 :
  tamanos_llave sql_to_df st = (inr ss, st1) →
  ∃ df, _load_dataframe sql_to_df st = (inr df, st1) ∧ data df !! "s_mm" = Some ss.
Proof.
  rewrite tamanos_llave_eq. destruct (_load_dataframe _ _) as [[e|df] st']; [done |].
  intros [= Hg <-]. exists df. by apply getitem_Some in Hg.
Qed.

(** Every call is the load followed by a pure answer on its frame. *)
Lemma run_call_eq c st :
  run_call sql_to_df c st =
  match _load_dataframe sql_to_df st with
  | (inr df, st1) => (answer c df, st1)
  | (inl e, st1) => (inl e, st1)
  end.
Proof.
  destruct c; unfold run_call, mbind, M_bind at 1, mret, M_ret; simpl.
  - rewrite metricas_eq. destruct (_load_dataframe _ _) as [[e|df] st1]; [done |].
    by destruct (getitem df _).
  - rewrite diametros_nominales_eq. destruct (_load_dataframe _ _) as [[e|df] st1]; [done |].
    by destruct (getitem df _).
  - rewrite diametro_nominal_eq. destruct (_load_dataframe _ _) as [[e|df] st1]; [done |].
    by destruct (loc_item df _ _).
  - rewrite tamanos_llave_eq. destruct (_load_dataframe _ _) as [[e|df] st1]; [done |].
    by destruct (getitem df _).
  - rewrite tamano_llave_eq. destruct (_load_dataframe _ _) as [[e|df] st1]; [done |].
    by destruct (loc_item df _ _).
Qed.

Lemma run_call_cached c st df :
  _df_cache (self st) = Some df → run_call sql_to_df c st = (answer c df, st).
Proof. intros Hc. by rewrite run_call_eq, (load_cached _ _ Hc). Qed.

Lemma run_calls_cached cs st df :
  _df_cache (self st) = Some df →
  run_calls sql_to_df cs st = (map (λ c, answer c df) cs, st).
Proof.
  intros Hc. induction cs as [|c cs IH]; simpl; [done |].
  by rewrite (run_call_cached _ _ _ Hc), IH.
Qed.

(** The three column reads of one instance, one after the other, see one
    frame; the state is settled after the first of them. *)
Lemma columns_read st st1 st2 st3 ms ds ss :
  metricas sql_to_df st = (inr ms, st1) →
  diametros_nominales sql_to_df st1 = (inr ds, st2) →
  tamanos_llave sql_to_df st2 = (inr ss, st3) →
  st2 = st1 ∧ st3 = st1 ∧
  ∃ df, _df_cache (self st1) = Some df ∧
        data df !! "Métrica" = Some ms ∧ data df !! "dnom_mm" = Some ds ∧
        data df !! "s_mm" = Some ss ∧
        _load_dataframe sql_to_df st = (inr df, st1).
Proof.
  intros (df & Hl & Hm)%metricas_returns (df1 & Hl1 & Hd)%diametros_nominales_returns
         (df2 & Hl2 & Hs)%tamanos_llave_returns.
  pose proof (load_returns _ _ _ Hl) as (Hc & _).
  rewrite (load_cached _ _ Hc) in Hl1. injection Hl1 as <- <-.
  rewrite (load_cached _ _ Hc) in Hl2. injection Hl2 as <- <-.
  eauto 10.
Qed.

(** ** The scalar lookups against the columns *)

(** C1: when the key [metrica] occurs exactly once in the table, at index
    [i] of [metricas()], then [diametro_nominal(metrica)] returns the
    value at index [i] of [diametros_nominales()] and
    [tamano_llave(metrica)] the value at index [i] of [tamanos_llave()]. *)
Theorem scalar_lookups_agree_with_columns st st1 st2 st3 ms ds ss metrica i :
  (∀ df, _df_cache (self st3) = Some df → DataFrame_wf df) →
  metricas sql_to_df st = (inr ms, st1) →
  diametros_nominales sql_to_df st1 = (inr ds, st2) →
  tamanos_llave sql_to_df st2 = (inr ss, st3) →
  ms !! i = Some (Str metrica) → n_matches metrica ms = 1 →
  ∃ d s, ds !! i = Some d ∧ ss !! i = Some s ∧
         diametro_nominal sql_to_df metrica st3 = (inr d, st3) ∧
         tamano_llave sql_to_df metrica st3 = (inr s, st3).
Proof.
  intros Hwf Hm Hd Hs Hi Hn.
  destruct (columns_read _ _ _ _ _ _ _ Hm Hd Hs) as (-> & -> & df & Hc & Hkm & Hkd & Hks & Hl).
  specialize (Hwf _ Hc).
  assert (Hlt : i < length ms) by (eapply lookup_lt_Some; eauto).
  destruct (lookup_lt_is_Some_2 ds i) as [d Hdi]; [by rewrite (Hwf _ _ Hkd), <- (Hwf _ _ Hkm) |].
  destruct (lookup_lt_is_Some_2 ss i) as [v Hvi]; [by rewrite (Hwf _ _ Hks), <- (Hwf _ _ Hkm) |].
  exists d, v. split_and!; [done | done | |].
  - rewrite diametro_nominal_eq, (load_cached _ _ Hc).
    by rewrite (loc_item_unique _ _ _ _ _ _ _ Hkm Hkd Hn Hi Hdi).
  - rewrite tamano_llave_eq, (load_cached _ _ Hc).
    by rewrite (loc_item_unique _ _ _ _ _ _ _ Hkm Hks Hn Hi Hvi).
Qed.

(** C5: [metricas()] is the column 'Métrica' of the table the load
    returned, in its stored order; the three column lists have the same
    length, and index [i] of each is the cell of row [i] of the table. *)
Theorem columns_same_length_same_rows st st1 st2 st3 ms ds ss :
  (∀ df, _df_cache (self st3) = Some df → DataFrame_wf df) →
  metricas sql_to_df st = (inr ms, st1) →
  diametros_nominales sql_to_df st1 = (inr ds, st2) →
  tamanos_llave sql_to_df st2 = (inr ss, st3) →
  ∃ df, _load_dataframe sql_to_df st = (inr df, st3) ∧
        _df_cache (self st3) = Some df ∧
        data df !! "Métrica" = Some ms ∧
        length ms = index_len df ∧ length ds = length ms ∧ length ss = length ms ∧
        ∀ i, ms !! i = row_at df i !! "Métrica" ∧
             ds !! i = row_at df i !! "dnom_mm" ∧
             ss !! i = row_at df i !! "s_mm".
Proof.
  intros Hwf Hm Hd Hs.
  destruct (columns_read _ _ _ _ _ _ _ Hm Hd Hs) as (-> & -> & df & Hc & Hkm & Hkd & Hks & Hl).
  specialize (Hwf _ Hc). exists df. split_and!; try done.
  - by apply Hwf in Hkm.
  - by rewrite (Hwf _ _ Hkd), (Hwf _ _ Hkm).
  - by rewrite (Hwf _ _ Hks), (Hwf _ _ Hkm).
  - intros i. by rewrite !(lookup_row_at _ _ _ _ Hkm), !(lookup_row_at _ _ _ _ Hkd),
      !(lookup_row_at _ _ _ _ Hks).
Qed.

(** C6: a key that occurs exactly once and whose wrench size is stored
    as the sentinel 0 makes [tamano_llave] return 0, with no error. *)
Theorem unknown_wrench_size_returns_zero st st1 st2 ms ss metrica i :
  metricas sql_to_df st = (inr ms, st1) →
  tamanos_llave sql_to_df st1 = (inr ss, st2) →
  ms !! i = Some (Str metrica) → n_matches metrica ms = 1 →
  ss !! i = Some (Float 0) →
  tamano_llave sql_to_df metrica st2 = (inr (Float 0), st2).
Proof.
  intros (df & Hl & Hkm)%metricas_returns (df1 & Hl1 & Hks)%tamanos_llave_returns Hi Hn Hz.
  apply load_returns in Hl as (Hc & _).
  rewrite (load_cached _ _ Hc) in Hl1. injection Hl1 as <- <-.
  rewrite tamano_llave_eq, (load_cached _ _ Hc).
  by rewrite (loc_item_unique _ _ _ _ _ _ _ Hkm Hks Hn Hi Hz).
Qed.

(** ** Lookups that fail *)

(** C2, as the code has it: a key that matches no row makes both scalar
    lookups raise the [ValueError] of [Series.item()]; it reaches the
    caller as it is, and the state, the log of loads included, is left as
    it was: nothing is tried again. *)
Theorem absent_metric_raises_ValueError st st1 st2 st3 ms ds ss metrica :
  metricas sql_to_df st = (inr ms, st1) →
  diametros_nominales sql_to_df st1 = (inr ds, st2) →
  tamanos_llave sql_to_df st2 = (inr ss, st3) →
  n_matches metrica ms = 0 →
  diametro_nominal sql_to_df metrica st3 = (inl ValueError, st3) ∧
  tamano_llave sql_to_df metrica st3 = (inl ValueError, st3) ∧
  run_call sql_to_df (DiametroNominal metrica) st3 = (inl ValueError, st3) ∧
  run_call sql_to_df (TamanoLlave metrica) st3 = (inl ValueError, st3).
Proof.
  intros Hm Hd Hs Hn.
  destruct (columns_read _ _ _ _ _ _ _ Hm Hd Hs) as (-> & -> & df & Hc & Hkm & Hkd & Hks & Hl).
  rewrite !(run_call_cached _ _ _ Hc), diametro_nominal_eq, tamano_llave_eq,
    (load_cached _ _ Hc). simpl.
  by rewrite (loc_item_no_match _ _ _ _ _ Hkm Hkd Hn), (loc_item_no_match _ _ _ _ _ Hkm Hks Hn).
Qed.

(** C3, as the code has it: a key that matches more than one row makes
    both scalar lookups raise the [ValueError] of [Series.item()], the
    exception a key with no row raises too; it reaches the caller as it
    is and nothing is tried again. *)
Theorem duplicated_metric_raises_ValueError st st1 st2 st3 ms ds ss metrica :
  (∀ df, _df_cache (self st3) = Some df → DataFrame_wf df) →
  metricas sql_to_df st = (inr ms, st1) →
  diametros_nominales sql_to_df st1 = (inr ds, st2) →
  tamanos_llave sql_to_df st2 = (inr ss, st3) →
  1 < n_matches metrica ms →
  diametro_nominal sql_to_df metrica st3 = (inl ValueError, st3) ∧
  tamano_llave sql_to_df metrica st3 = (inl ValueError, st3) ∧
  run_call sql_to_df (DiametroNominal metrica) st3 = (inl ValueError, st3) ∧
  run_call sql_to_df (TamanoLlave metrica) st3 = (inl ValueError, st3).
Proof.
  intros Hwf Hm Hd Hs Hn.
  destruct (columns_read _ _ _ _ _ _ _ Hm Hd Hs) as (-> & -> & df & Hc & Hkm & Hkd & Hks & Hl).
  specialize (Hwf _ Hc).
  rewrite !(run_call_cached _ _ _ Hc), diametro_nominal_eq, tamano_llave_eq,
    (load_cached _ _ Hc). simpl.
  rewrite (loc_item_ValueError _ _ _ _ _ Hwf Hkm Hkd), (loc_item_ValueError _ _ _ _ _ Hwf Hkm Hks);
    [done | lia | lia].
Qed.

(** C9: whenever the number of matching rows is not one, both scalar
    lookups raise [ValueError]; a key with no row and a key with several
    rows get the very same exception, class and message. *)
Theorem lookup_failures_share_one_exception st st1 st2 st3 ms ds ss :
  (∀ df, _df_cache (self st3) = Some df → DataFrame_wf df) →
  metricas sql_to_df st = (inr ms, st1) →
  diametros_nominales sql_to_df st1 = (inr ds, st2) →
  tamanos_llave sql_to_df st2 = (inr ss, st3) →
  (∀ metrica, n_matches metrica ms ≠ 1 →
     diametro_nominal sql_to_df metrica st3 = (inl ValueError, st3) ∧
     tamano_llave sql_to_df metrica st3 = (inl ValueError, st3)) ∧
  (∀ absent several, n_matches absent ms = 0 → 1 < n_matches several ms →
     diametro_nominal sql_to_df absent st3 = diametro_nominal sql_to_df several st3 ∧
     tamano_llave sql_to_df absent st3 = tamano_llave sql_to_df several st3) ∧
  exn_class ValueError = "ValueError".
Proof.
  intros Hwf Hm Hd Hs.
  destruct (columns_read _ _ _ _ _ _ _ Hm Hd Hs) as (-> & -> & df & Hc & Hkm & Hkd & Hks & Hl).
  specialize (Hwf _ Hc).
  assert (Hall : ∀ metrica, n_matches metrica ms ≠ 1 →
     diametro_nominal sql_to_df metrica st1 = (inl ValueError, st1) ∧
     tamano_llave sql_to_df metrica st1 = (inl ValueError, st1)).
  { intros metrica Hn. rewrite diametro_nominal_eq, tamano_llave_eq, (load_cached _ _ Hc).
    by rewrite (loc_item_ValueError _ _ _ _ _ Hwf Hkm Hkd Hn),
      (loc_item_ValueError _ _ _ _ _ Hwf Hkm Hks Hn). }
  split_and!; [done | | done].
  intros absent several H0 H2.
  destruct (Hall absent) as [-> ->]; [lia |].
  destruct (Hall several) as [-> ->]; [lia |]. done.
Qed.

(** C10: a scalar lookup that fails because the key matches no row or
    several rows fails after the load: the cache slot holds the loaded
    table, and an instance whose slot was filled before is not changed
    at all. *)
Theorem failed_lookup_keeps_cache st df st1 ms ds ss metrica :
  _load_dataframe sql_to_df st = (inr df, st1) →
  DataFrame_wf df →
  data df !! "Métrica" = Some ms → data df !! "dnom_mm" = Some ds →
  data df !! "s_mm" = Some ss →
  n_matches metrica ms ≠ 1 →
  diametro_nominal sql_to_df metrica st = (inl ValueError, st1) ∧
  tamano_llave sql_to_df metrica st = (inl ValueError, st1) ∧
  _df_cache (self st1) = Some df ∧
  (∀ df0, _df_cache (self st) = Some df0 → df0 = df ∧ st1 = st).
Proof.
  intros Hl Hwf Hkm Hkd Hks Hn.
  rewrite diametro_nominal_eq, tamano_llave_eq, Hl.
  rewrite (loc_item_ValueError _ _ _ _ _ Hwf Hkm Hkd Hn),
    (loc_item_ValueError _ _ _ _ _ Hwf Hkm Hks Hn).
  apply load_returns in Hl as (Hc & _ & _ & _ & [[Hc0 ->]|[Hc0 _]]);
    split_and!; try done; intros df0 Hdf0; rewrite Hdf0 in Hc0; naive_solver.
Qed.

(** ** One load, then no change *)

(** C4: a load that returns on an instance with an empty slot has called
    the loader exactly once and stored its frame; from then on a load
    returns that frame and changes nothing, every accessor gives the same
    result the second time, and no sequence of calls reaches the loader
    again. *)
Theorem load_dataframe_idempotent st df st1 :
  _load_dataframe sql_to_df st = (inr df, st1) →
  _df_cache (self st1) = Some df ∧
  (_df_cache (self st) = None →
   loads st1 = loads st ++ [(ruta_datos (self st) +:+ tornillos_db (self st), tabla (self st))]) ∧
  _load_dataframe sql_to_df st1 = (inr df, st1) ∧
  (∀ c, ∃ r, run_call sql_to_df c st = (r, st1) ∧ run_call sql_to_df c st1 = (r, st1)) ∧
  (∀ cs, (run_calls sql_to_df cs st1).2 = st1).
Proof.
  intros Hl. pose proof (load_again _ _ _ Hl) as Hl1.
  pose proof (load_returns _ _ _ Hl) as (Hc & _ & _ & _ & Hcase).
  split_and!; try done.
  - intros Hnone. destruct Hcase as [[Hsome _]|[_ Hlog]]; [congruence | done].
  - intros c. exists (answer c df). by rewrite !run_call_eq, Hl, Hl1.
  - intros cs. by rewrite (run_calls_cached _ _ _ Hc).
Qed.

(** C7: an accessor never writes [ruta_datos], [tornillos_db] or [tabla];
    the cache slot changes only from empty to filled; and once the slot
    is filled no call, and no sequence of calls, changes the state. *)
Theorem accessors_only_fill_the_cache st :
  (∀ c r st1, run_call sql_to_df c st = (r, st1) →
     ruta_datos (self st1) = ruta_datos (self st) ∧
     tornillos_db (self st1) = tornillos_db (self st) ∧
     tabla (self st1) = tabla (self st) ∧
     (_df_cache (self st1) = _df_cache (self st) ∨
      _df_cache (self st) = None ∧ is_Some (_df_cache (self st1)))) ∧
  (∀ df, _df_cache (self st) = Some df →
     (∀ c, (run_call sql_to_df c st).2 = st) ∧
     (∀ cs, (run_calls sql_to_df cs st).2 = st)).
Proof.
  split.
  - intros c r st1. rewrite run_call_eq.
    destruct (_load_dataframe sql_to_df st) as [[e|df] st'] eqn:Hl; intros [= <- <-].
    + apply load_raises in Hl as (Hnone & -> & _). auto.
    + apply load_returns in Hl as (Hc & ? & ? & ? & [[Hc0 ->]|[Hc0 _]]).
      * auto.
      * split_and!; try done. right. by rewrite Hc.
  - intros df Hc. split.
    + intros c. by rewrite (run_call_cached _ _ _ Hc).
    + intros cs. by rewrite (run_calls_cached _ _ _ Hc).
Qed.

Lemma run_call_loads c st :
  let st1 := (run_call sql_to_df c st).2 in
  self st1 = self st ∧ _df_cache (self st) = None ∧
    loads st1 = loads st ++ [(ruta_datos (self st) +:+ tornillos_db (self st), tabla (self st))]
  ∨ ruta_datos (self st1) = ruta_datos (self st) ∧
    tornillos_db (self st1) = tornillos_db (self st) ∧
    tabla (self st1) = tabla (self st) ∧
    is_Some (_df_cache (self st1)) ∧
    match _df_cache (self st) with
    | Some _ => loads st1 = loads st
    | None => loads st1 = loads st ++
                [(ruta_datos (self st) +:+ tornillos_db (self st), tabla (self st))]
    end.
Proof.
  simpl. rewrite run_call_eq.
  destruct (_load_dataframe sql_to_df st) as [[e|df] st'] eqn:Hl; simpl.
  - left. by apply load_raises in Hl as (? & ? & ?).
  - right. apply load_returns in Hl as (Hc & ? & ? & ? & [[Hc0 ->]|[Hc0 Hlog]]).
    + rewrite Hc0. eauto.
    + rewrite Hc0, Hc. eauto.
Qed.

(** Whatever is called, every entry the log gains names the store
    location and the table of the instance. *)
Lemma run_calls_loads cs st :
  let st1 := (run_calls sql_to_df cs st).2 in
  ruta_datos (self st1) = ruta_datos (self st) ∧
  tornillos_db (self st1) = tornillos_db (self st) ∧
  tabla (self st1) = tabla (self st) ∧
  ∃ n, loads st1 = loads st ++
         replicate n (ruta_datos (self st) +:+ tornillos_db (self st), tabla (self st)).
Proof.
  revert st. induction cs as [|c cs IH]; intros st; simpl.
  - split_and!; try done. exists 0. by rewrite app_nil_r.
  - pose proof (run_call_loads c st) as Hc. simpl in Hc.
    destruct (run_call sql_to_df c st) as [r st1]. specialize (IH st1). simpl in IH, Hc.
    destruct (run_calls sql_to_df cs st1) as [rs st2]. simpl in *.
    destruct IH as (Hr & Ht & Hb & n & Hlog).
    assert (ruta_datos (self st1) = ruta_datos (self st) ∧
            tornillos_db (self st1) = tornillos_db (self st) ∧
            tabla (self st1) = tabla (self st)) as (Hr1 & Ht1 & Hb1).
    { destruct Hc as [(-> & _)|(? & ? & ? & _)]; done. }
    rewrite Hr1, Ht1, Hb1 in *. split_and!; try done.
    assert (∃ k, loads st1 = loads st ++
              replicate k (ruta_datos (self st) +:+ tornillos_db (self st), tabla (self st)))
      as [k Hk].
    { destruct Hc as [(_ & _ & Hl)|(_ & _ & _ & _ & Hl)].
      - by exists 1.
      - destruct (_df_cache (self st)); [exists 0; by rewrite app_nil_r | by exists 1]. }
    exists (k + n). by rewrite Hlog, Hk, <- app_assoc, replicate_add.
Qed.

(** C8: on an instance as [__init__] makes it, the first call applies the
    loader to the data directory of [Paths] followed by a backslash and
    'tornillos.db' as the store location and to the table
    'tamano_llaves', and what the call gives is what the loader gives
    there. Whatever has been called before, a call on an empty slot
    applies the loader to that location and that table and to no other,
    and a call on a filled slot does not apply it; so every entry of the
    log names that location and that table. *)
Theorem loader_called_with_fixed_location Paths_data (w : World) :
  (∀ c, run_call sql_to_df c (mkState (__init__ Paths_data) w []) =
        match sql_to_df ((Paths_data +:+ "\") +:+ "tornillos.db") "tamano_llaves" w with
        | (inr df, w') =>
            (answer c df,
             mkState (mkDatos (Paths_data +:+ "\") "tornillos.db" "tamano_llaves" (Some df)) w'
                     [((Paths_data +:+ "\") +:+ "tornillos.db", "tamano_llaves")])
        | (inl e, w') =>
            (inl e,
             mkState (__init__ Paths_data) w'
                     [((Paths_data +:+ "\") +:+ "tornillos.db", "tamano_llaves")])
        end) ∧
  (∀ cs c,
     let st := (run_calls sql_to_df cs (mkState (__init__ Paths_data) w [])).2 in
     run_call sql_to_df c st =
     match _df_cache (self st) with
     | Some df => (answer c df, st)
     | None =>
         match sql_to_df ((Paths_data +:+ "\") +:+ "tornillos.db") "tamano_llaves" (world st) with
         | (inr df, w') =>
             (answer c df,
              mkState (mkDatos (Paths_data +:+ "\") "tornillos.db" "tamano_llaves" (Some df)) w'
                      (loads st ++ [((Paths_data +:+ "\") +:+ "tornillos.db", "tamano_llaves")]))
         | (inl e, w') =>
             (inl e,
              mkState (self st) w'
                      (loads st ++ [((Paths_data +:+ "\") +:+ "tornillos.db", "tamano_llaves")]))
         end
     end) ∧
  (∀ c, loads (run_call sql_to_df c (mkState (__init__ Paths_data) w [])).2 =
        [((Paths_data +:+ "\") +:+ "tornillos.db", "tamano_llaves")]) ∧
  (∀ cs, Forall (λ e, e = ((Paths_data +:+ "\") +:+ "tornillos.db", "tamano_llaves"))
           (loads (run_calls sql_to_df cs (mkState (__init__ Paths_data) w [])).2)).
Proof.
  split_and!.
  - intros c. rewrite run_call_eq.
    rewrite (load_fresh (mkState (__init__ Paths_data) w []) eq_refl). simpl.
    by destruct (sql_to_df _ _ w) as [[e|df] w'].
  - intros cs c. simpl.
    pose proof (run_calls_loads cs (mkState (__init__ Paths_data) w [])) as H.
    simpl in H. destruct H as (Hr & Ht & Hb & _).
    set (st := (run_calls sql_to_df cs (mkState (__init__ Paths_data) w [])).2) in *.
    rewrite run_call_eq. destruct (_df_cache (self st)) as [df|] eqn:Hc.
    + by rewrite (load_cached _ _ Hc).
    + rewrite (load_fresh _ Hc). simpl. rewrite Hr, Ht, Hb.
      by destruct (sql_to_df _ _ (world st)) as [[e|df] w'].
  - intros c. pose proof (run_call_loads c (mkState (__init__ Paths_data) w [])) as H.
    simpl in H. destruct H as [(_ & _ & ->)|(_ & _ & _ & _ & ->)]; done.
  - intros cs. pose proof (run_calls_loads cs (mkState (__init__ Paths_data) w [])) as H.
    simpl in H. destruct H as (_ & _ & _ & n & ->). simpl.
    apply Forall_forall. by intros e ->%elem_of_replicate_inv.
Qed.

End Properties.

(** ** Concrete runs *)

Lemma frame_of_wf (metrica dnom s : Series) :
  length dnom = length metrica → length s = length metrica →
  DataFrame_wf (frame_of metrica dnom s).
Proof.
  intros Hd Hs col x. unfold frame_of. simpl.
  rewrite !lookup_insert. repeat case_decide; naive_solver.
Qed.

Lemma sample_cache_wf disk :
  DataFrame_wf disk →
  ∀ df, _df_cache (self (sample_loaded disk)) = Some df → DataFrame_wf df.
Proof. by intros Hwf df [= <-]. Qed.

Lemma sample_df_wf : DataFrame_wf sample_df.
Proof. by apply frame_of_wf. Qed.

Lemma duplicated_df_wf : DataFrame_wf duplicated_df.
Proof. by apply frame_of_wf. Qed.

(** The run of the script at the end of the module: the three columns,
    read off one load. *)
Example main_script_run :
  run_calls sample_sql_to_df [Metricas; DiametrosNominales; TamanosLlave]
            (sample_init sample_df)
  = ([inr (PList [Str "M5"; Str "M6"; Str "M7"; Str "M8"]);
      inr (PList [Float 5; Float 6; Float 7; Float 8]);
      inr (PList [Float 8; Float 10; Float 0; Float 13])],
     sample_loaded sample_df).
Proof. vm_compute; reflexivity. Qed.

(** A loader that raises leaves the slot empty, so the next call asks it
    again: here the data directory is not the one the sample disk has. *)
Example failed_load_is_tried_again :
  run_calls sample_sql_to_df [Metricas; Metricas]
            (mkState (__init__ "D:\datos") sample_df [])
  = ([inl (Raise "DatabaseError" "tamano_llaves");
      inl (Raise "DatabaseError" "tamano_llaves")],
     mkState (__init__ "D:\datos") sample_df
             [("D:\datos\tornillos.db", "tamano_llaves");
              ("D:\datos\tornillos.db", "tamano_llaves")]).
Proof. vm_compute; reflexivity. Qed.

(** M8 is row 3 of the sample table: 8 mm of diameter, a 13 mm wrench. *)
Lemma scalar_lookups_agree_with_columns_witness :
  ∃ d s,
    [Float 5; Float 6; Float 7; Float 8] !! 3 = Some d ∧
    [Float 8; Float 10; Float 0; Float 13] !! 3 = Some s ∧
    diametro_nominal sample_sql_to_df "M8" (sample_loaded sample_df)
      = (inr d, sample_loaded sample_df) ∧
    tamano_llave sample_sql_to_df "M8" (sample_loaded sample_df)
      = (inr s, sample_loaded sample_df).
Proof.
  apply (scalar_lookups_agree_with_columns sample_sql_to_df
           (sample_init sample_df) (sample_loaded sample_df)
           (sample_loaded sample_df) (sample_loaded sample_df)
           [Str "M5"; Str "M6"; Str "M7"; Str "M8"]
           [Float 5; Float 6; Float 7; Float 8]
           [Float 8; Float 10; Float 0; Float 13] "M8" 3).
  - apply sample_cache_wf, sample_df_wf.
  - vm_compute; reflexivity.
  - vm_compute; reflexivity.
  - vm_compute; reflexivity.
  - reflexivity.
  - vm_compute; reflexivity.
Defined.

(** The three columns of the sample table, read one after the other. *)
Lemma columns_same_length_same_rows_witness :
  ∃ df, _load_dataframe sample_sql_to_df (sample_init sample_df)
          = (inr df, sample_loaded sample_df) ∧
        _df_cache (self (sample_loaded sample_df)) = Some df ∧
        data df !! "Métrica" = Some [Str "M5"; Str "M6"; Str "M7"; Str "M8"] ∧
        length [Str "M5"; Str "M6"; Str "M7"; Str "M8"] = index_len df ∧
        length [Float 5; Float 6; Float 7; Float 8]
          = length [Str "M5"; Str "M6"; Str "M7"; Str "M8"] ∧
        length [Float 8; Float 10; Float 0; Float 13]
          = length [Str "M5"; Str "M6"; Str "M7"; Str "M8"] ∧
        ∀ i, [Str "M5"; Str "M6"; Str "M7"; Str "M8"] !! i = row_at df i !! "Métrica" ∧
             [Float 5; Float 6; Float 7; Float 8] !! i = row_at df i !! "dnom_mm" ∧
             [Float 8; Float 10; Float 0; Float 13] !! i = row_at df i !! "s_mm".
Proof.
  apply (columns_same_length_same_rows sample_sql_to_df
           (sample_init sample_df) (sample_loaded sample_df)
           (sample_loaded sample_df) (sample_loaded sample_df)).
  - apply sample_cache_wf, sample_df_wf.
  - vm_compute; reflexivity.
  - vm_compute; reflexivity.
  - vm_compute; reflexivity.
Defined.

(** M7 is row 2 of the sample table, its wrench size is the sentinel. *)
Lemma unknown_wrench_size_returns_zero_witness :
  n_matches "M7" [Str "M5"; Str "M6"; Str "M7"; Str "M8"] = 1 ∧
  tamano_llave sample_sql_to_df "M7" (sample_loaded sample_df)
    = (inr (Float 0), sample_loaded sample_df).
Proof.
  split; [vm_compute; reflexivity |].
  apply (unknown_wrench_size_returns_zero sample_sql_to_df
           (sample_init sample_df) (sample_loaded sample_df) (sample_loaded sample_df)
           [Str "M5"; Str "M6"; Str "M7"; Str "M8"]
           [Float 8; Float 10; Float 0; Float 13] "M7" 2).
  - vm_compute; reflexivity.
  - vm_compute; reflexivity.
  - reflexivity.
  - vm_compute; reflexivity.
  - reflexivity.
Defined.

(** M999 is not in the sample table. *)
Lemma absent_metric_raises_ValueError_witness :
  n_matches "M999" [Str "M5"; Str "M6"; Str "M7"; Str "M8"] = 0 ∧
  diametro_nominal sample_sql_to_df "M999" (sample_loaded sample_df)
    = (inl ValueError, sample_loaded sample_df) ∧
  tamano_llave sample_sql_to_df "M999" (sample_loaded sample_df)
    = (inl ValueError, sample_loaded sample_df) ∧
  run_call sample_sql_to_df (DiametroNominal "M999") (sample_loaded sample_df)
    = (inl ValueError, sample_loaded sample_df) ∧
  run_call sample_sql_to_df (TamanoLlave "M999") (sample_loaded sample_df)
    = (inl ValueError, sample_loaded sample_df).
Proof.
  split; [vm_compute; reflexivity |].
  apply (absent_metric_raises_ValueError sample_sql_to_df
           (sample_init sample_df) (sample_loaded sample_df)
           (sample_loaded sample_df) (sample_loaded sample_df)
           [Str "M5"; Str "M6"; Str "M7"; Str "M8"]
           [Float 5; Float 6; Float 7; Float 8]
           [Float 8; Float 10; Float 0; Float 13] "M999").
  - vm_compute; reflexivity.
  - vm_compute; reflexivity.
  - vm_compute; reflexivity.
  - vm_compute; reflexivity.
Defined.

(** C2 as it is written fails: the key M999 matches no row of the sample
    table, and what both lookups raise is a [ValueError], whose class is
    not [NotFoundError]. *)
Lemma absent_metric_not_NotFoundError :
  metricas sample_sql_to_df (sample_init sample_df)
    = (inr [Str "M5"; Str "M6"; Str "M7"; Str "M8"], sample_loaded sample_df) ∧
  n_matches "M999" [Str "M5"; Str "M6"; Str "M7"; Str "M8"] = 0 ∧
  ¬ (∃ e st1, diametro_nominal sample_sql_to_df "M999" (sample_loaded sample_df) = (inl e, st1) ∧
              exn_class e = "NotFoundError") ∧
  ¬ (∃ e st1, tamano_llave sample_sql_to_df "M999" (sample_loaded sample_df) = (inl e, st1) ∧
              exn_class e = "NotFoundError").
Proof.
  split_and!; [vm_compute; reflexivity | vm_compute; reflexivity | |];
    intros (e & st1 & Hr & Hcls); vm_compute in Hr; injection Hr as <- _; discriminate Hcls.
Qed.

(** M8 is twice in the table with the duplicated key. *)
Lemma duplicated_metric_raises_ValueError_witness :
  n_matches "M8" [Str "M6"; Str "M8"; Str "M8"] = 2 ∧
  diametro_nominal sample_sql_to_df "M8" (sample_loaded duplicated_df)
    = (inl ValueError, sample_loaded duplicated_df) ∧
  tamano_llave sample_sql_to_df "M8" (sample_loaded duplicated_df)
    = (inl ValueError, sample_loaded duplicated_df) ∧
  run_call sample_sql_to_df (DiametroNominal "M8") (sample_loaded duplicated_df)
    = (inl ValueError, sample_loaded duplicated_df) ∧
  run_call sample_sql_to_df (TamanoLlave "M8") (sample_loaded duplicated_df)
    = (inl ValueError, sample_loaded duplicated_df).
Proof.
  split; [vm_compute; reflexivity |].
  apply (duplicated_metric_raises_ValueError sample_sql_to_df
           (sample_init duplicated_df) (sample_loaded duplicated_df)
           (sample_loaded duplicated_df) (sample_loaded duplicated_df)
           [Str "M6"; Str "M8"; Str "M8"]
           [Float 6; Float 8; Float 8]
           [Float 10; Float 13; Float 13] "M8").
  - apply sample_cache_wf, duplicated_df_wf.
  - vm_compute; reflexivity.
  - vm_compute; reflexivity.
  - vm_compute; reflexivity.
  - vm_compute; lia.
Defined.

(** C3 as it is written fails: the key M8 matches two rows, and what both
    lookups raise is a [ValueError], whose class is not
    [AmbiguousResultError]; the absent key M999 gets the same exception,
    so the two causes have no error types of their own. *)
Lemma duplicated_metric_not_AmbiguousResultError :
  metricas sample_sql_to_df (sample_init duplicated_df)
    = (inr [Str "M6"; Str "M8"; Str "M8"], sample_loaded duplicated_df) ∧
  n_matches "M8" [Str "M6"; Str "M8"; Str "M8"] = 2 ∧
  n_matches "M999" [Str "M6"; Str "M8"; Str "M8"] = 0 ∧
  ¬ (∃ e st1, diametro_nominal sample_sql_to_df "M8" (sample_loaded duplicated_df) = (inl e, st1) ∧
              exn_class e = "AmbiguousResultError") ∧
  ¬ (∃ e st1, tamano_llave sample_sql_to_df "M8" (sample_loaded duplicated_df) = (inl e, st1) ∧
              exn_class e = "AmbiguousResultError") ∧
  diametro_nominal sample_sql_to_df "M8" (sample_loaded duplicated_df)
    = diametro_nominal sample_sql_to_df "M999" (sample_loaded duplicated_df) ∧
  tamano_llave sample_sql_to_df "M8" (sample_loaded duplicated_df)
    = tamano_llave sample_sql_to_df "M999" (sample_loaded duplicated_df).
Proof.
  split_and!; try (vm_compute; reflexivity);
    intros (e & st1 & Hr & Hcls); vm_compute in Hr; injection Hr as <- _; discriminate Hcls.
Qed.

(** On the table with the duplicated key, the absent M999 and the
    duplicated M8 fail alike. *)
Lemma lookup_failures_share_one_exception_witness :
  n_matches "M999" [Str "M6"; Str "M8"; Str "M8"] = 0 ∧
  n_matches "M8" [Str "M6"; Str "M8"; Str "M8"] = 2 ∧
  diametro_nominal sample_sql_to_df "M999" (sample_loaded duplicated_df)
    = diametro_nominal sample_sql_to_df "M8" (sample_loaded duplicated_df) ∧
  tamano_llave sample_sql_to_df "M999" (sample_loaded duplicated_df)
    = tamano_llave sample_sql_to_df "M8" (sample_loaded duplicated_df).
Proof.
  split; [vm_compute; reflexivity |]. split; [vm_compute; reflexivity |].
  refine (proj1 (proj2 (lookup_failures_share_one_exception sample_sql_to_df
           (sample_init duplicated_df) (sample_loaded duplicated_df)
           (sample_loaded duplicated_df) (sample_loaded duplicated_df)
           [Str "M6"; Str "M8"; Str "M8"]
           [Float 6; Float 8; Float 8]
           [Float 10; Float 13; Float 13] _ _ _ _)) "M999" "M8" _ _).
  - apply sample_cache_wf, duplicated_df_wf.
  - vm_compute; reflexivity.
  - vm_compute; reflexivity.
  - vm_compute; reflexivity.
  - vm_compute; reflexivity.
  - vm_compute; lia.
Defined.

(** The first call on a new instance is a lookup of the absent M999: the
    table is loaded and cached, then the lookup fails. *)
Lemma failed_lookup_keeps_cache_witness :
  diametro_nominal sample_sql_to_df "M999" (sample_init sample_df)
    = (inl ValueError, sample_loaded sample_df) ∧
  tamano_llave sample_sql_to_df "M999" (sample_init sample_df)
    = (inl ValueError, sample_loaded sample_df) ∧
  _df_cache (self (sample_loaded sample_df)) = Some sample_df ∧
  (∀ df0, _df_cache (self (sample_init sample_df)) = Some df0 →
          df0 = sample_df ∧ sample_loaded sample_df = sample_init sample_df).
Proof.
  apply (failed_lookup_keeps_cache sample_sql_to_df
           (sample_init sample_df) sample_df (sample_loaded sample_df)
           [Str "M5"; Str "M6"; Str "M7"; Str "M8"]
           [Float 5; Float 6; Float 7; Float 8]
           [Float 8; Float 10; Float 0; Float 13] "M999").
  - vm_compute; reflexivity.
  - apply sample_df_wf.
  - vm_compute; reflexivity.
  - vm_compute; reflexivity.
  - vm_compute; reflexivity.
  - vm_compute; lia.
Defined.

(** The first load of a new instance over the sample table. *)
Lemma load_dataframe_idempotent_witness :
  _df_cache (self (sample_loaded sample_df)) = Some sample_df ∧
  (_df_cache (self (sample_init sample_df)) = None →
   loads (sample_loaded sample_df) =
   loads (sample_init sample_df) ++
     [(ruta_datos (self (sample_init sample_df)) +:+ tornillos_db (self (sample_init sample_df)),
       tabla (self (sample_init sample_df)))]) ∧
  _load_dataframe sample_sql_to_df (sample_loaded sample_df)
    = (inr sample_df, sample_loaded sample_df) ∧
  (∀ c, ∃ r, run_call sample_sql_to_df c (sample_init sample_df) = (r, sample_loaded sample_df) ∧
             run_call sample_sql_to_df c (sample_loaded sample_df) = (r, sample_loaded sample_df)) ∧
  (∀ cs, (run_calls sample_sql_to_df cs (sample_loaded sample_df)).2 = sample_loaded sample_df).
Proof.
  apply (load_dataframe_idempotent sample_sql_to_df
           (sample_init sample_df) sample_df (sample_loaded sample_df)).
  vm_compute; reflexivity.
Defined.

(** ** More on the selection and on the key column *)

Lemma cell_eq_true metrica c : cell_eq metrica c = true ↔ c = Str metrica.
Proof.
  destruct c as [x| |]; simpl; [| naive_solver | naive_solver].
  rewrite String.eqb_eq. naive_solver.
Qed.

Lemma n_matches_not_elem metrica (ms : Series) :
  Str metrica ∉ ms → n_matches metrica ms = 0.
Proof.
  induction ms as [|c ms IH]; [done |].
  rewrite not_elem_of_cons, n_matches_cons. intros [Hc Hms].
  destruct (cell_eq metrica c) eqn:E; [| auto].
  apply cell_eq_true in E. congruence.
Qed.

(** In a key column without repeated cells a key that is there matches
    one row. *)
Lemma n_matches_NoDup metrica (ms : Series) i :
  NoDup ms → ms !! i = Some (Str metrica) → n_matches metrica ms = 1.
Proof.
  intros Hnd. revert i. induction Hnd as [|c ms Hc Hnd IH]; intros [|i]; simpl; try done.
  - intros [= ->]. rewrite n_matches_cons, cell_eq_Str. f_equal.
    by apply n_matches_not_elem.
  - intros Hi. rewrite n_matches_cons.
    destruct (cell_eq metrica c) eqn:E; [| eauto].
    apply cell_eq_true in E. subst c. exfalso. apply Hc.
    eapply list_elem_of_lookup_2, Hi.
Qed.

(** A selection of one value: the value stands in a row of the key. *)
Lemma select_singleton_inv metrica (key val : Series) v :
  select (series_eq key metrica) val = [v] →
  ∃ i, key !! i = Some (Str metrica) ∧ val !! i = Some v.
Proof.
  revert val. induction key as [|c key IH]; intros [|x val]; simpl; try done.
  destruct (cell_eq metrica c) eqn:E.
  - intros [= -> _]. apply cell_eq_true in E as ->. by exists 0.
  - intros (i & ? & ?)%IH. by exists (S i).
Qed.

Lemma item_inr_inv (s : Series) v : item s = inr v → s = [v].
Proof. destruct s as [|x [|y s]]; simpl; naive_solver. Qed.

(** A lookup that returns has found exactly one row, and returns the
    cell of that row. *)
Lemma loc_item_inr_inv df metrica col (key val : Series) v :
  DataFrame_wf df →
  data df !! "Métrica" = Some key → data df !! col = Some val →
  loc_item df metrica col = inr v →
  n_matches metrica key = 1 ∧ ∃ i, key !! i = Some (Str metrica) ∧ val !! i = Some v.
Proof.
  intros Hwf Hk Hv. rewrite (loc_item_eq _ _ _ _ _ Hk Hv). intros Hsel%item_inr_inv.
  split; [| by eapply select_singleton_inv].
  rewrite <- (length_select metrica key val), Hsel; [done |].
  by rewrite (Hwf _ _ Hk), (Hwf _ _ Hv).
Qed.

(** A missing key column is reported before anything else. *)
Lemma loc_item_no_key_column df metrica col :
  data df !! "Métrica" = None → loc_item df metrica col = inl (KeyError "Métrica").
Proof. intros Hk. unfold loc_item, getitem. by rewrite Hk. Qed.

(** A missing value column is reported whatever the key matches. *)
Lemma loc_item_no_value_column df metrica col (key : Series) :
  data df !! "Métrica" = Some key → data df !! col = None →
  loc_item df metrica col = inl (KeyError col).
Proof. intros Hk Hv. unfold loc_item, getitem, loc. by rewrite Hk, Hv. Qed.

(** ** When the loader raises *)

Section MoreProperties.

Context {World : Type}.
Context (sql_to_df : string → string → World → (exn + DataFrame) * World).

Implicit Types (st : State World) (df : DataFrame) (metrica : string).

Lemma load_fresh_raises st e w :
  _df_cache (self st) = None →
  sql_to_df (ruta_datos (self st) +:+ tornillos_db (self st)) (tabla (self st)) (world st)
    = (inl e, w) →
  _load_dataframe sql_to_df st =
  (inl e, mkState (self st) w
            (loads st ++ [(ruta_datos (self st) +:+ tornillos_db (self st), tabla (self st))])).
Proof. intros Hc Hs. rewrite (load_fresh _ _ Hc). simpl. by rewrite Hs. Qed.

Lemma load_fresh_returns st df w :
  _df_cache (self st) = None →
  sql_to_df (ruta_datos (self st) +:+ tornillos_db (self st)) (tabla (self st)) (world st)
    = (inr df, w) →
  _load_dataframe sql_to_df st =
  (inr df, mkState (mkDatos (ruta_datos (self st)) (tornillos_db (self st))
                            (tabla (self st)) (Some df)) w
             (loads st ++ [(ruta_datos (self st) +:+ tornillos_db (self st), tabla (self st))])).
Proof. intros Hc Hs. rewrite (load_fresh _ _ Hc). simpl. by rewrite Hs. Qed.

(** X1: when the slot is empty and the loader raises, every accessor
    raises that very exception; the instance is left as it was, the slot
    still empty, and the one call to the loader is in the log. *)
Theorem loader_exception_reaches_the_caller st e w :
  _df_cache (self st) = None →
  sql_to_df (ruta_datos (self st) +:+ tornillos_db (self st)) (tabla (self st)) (world st)
    = (inl e, w) →
  let st1 := mkState (self st) w
               (loads st ++ [(ruta_datos (self st) +:+ tornillos_db (self st), tabla (self st))]) in
  metricas sql_to_df st = (inl e, st1) ∧
  diametros_nominales sql_to_df st = (inl e, st1) ∧
  tamanos_llave sql_to_df st = (inl e, st1) ∧
  (∀ metrica, diametro_nominal sql_to_df metrica st = (inl e, st1) ∧
              tamano_llave sql_to_df metrica st = (inl e, st1)) ∧
  _df_cache (self st1) = None.
Proof.
  intros Hc Hs. pose proof (load_fresh_raises _ _ _ Hc Hs) as Hl. simpl.
  rewrite metricas_eq, diametros_nominales_eq, tamanos_llave_eq, Hl.
  split_and!; try done.
  intros metrica. by rewrite diametro_nominal_eq, tamano_llave_eq, Hl.
Qed.

(** X2: a failure is not remembered. While the loader keeps raising,
    every call of a sequence asks it again: the log grows by one entry
    per call, every call ends in an exception and the slot stays empty. *)
Theorem failing_loader_is_asked_on_every_call cs st :
  _df_cache (self st) = None →
  (∀ w, ∃ e w', sql_to_df (ruta_datos (self st) +:+ tornillos_db (self st))
                          (tabla (self st)) w = (inl e, w')) →
  self (run_calls sql_to_df cs st).2 = self st ∧
  loads (run_calls sql_to_df cs st).2 =
    loads st ++ replicate (length cs)
                  (ruta_datos (self st) +:+ tornillos_db (self st), tabla (self st)) ∧
  length (run_calls sql_to_df cs st).1 = length cs ∧
  (∀ r, r ∈ (run_calls sql_to_df cs st).1 → ∃ e, r = inl e).
Proof.
  revert st. induction cs as [|c cs IH]; intros st Hc Hfail; simpl.
  - rewrite app_nil_r. split_and!; try done. by intros r ?%elem_of_nil.
  - destruct (Hfail (world st)) as (e & w & Hs).
    rewrite run_call_eq, (load_fresh_raises _ _ _ Hc Hs).
    set (st1 := mkState (self st) w _).
    specialize (IH st1 Hc Hfail).
    destruct (run_calls sql_to_df cs st1) as [rs st2]. simpl in *.
    destruct IH as (Hself & Hlog & Hlen & Hrs).
    split_and!; [done | | by rewrite Hlen |].
    + by rewrite Hlog, <- app_assoc.
    + intros r [->|?]%elem_of_cons; eauto.
Qed.

(** X3: after a call that failed in the loader, the next call loads
    again; if the loader now returns a frame, that call is answered from
    it and the frame is cached, with two loads in the log. *)
Theorem load_is_tried_again_after_a_failure c c' st e w1 df w2 :
  _df_cache (self st) = None →
  sql_to_df (ruta_datos (self st) +:+ tornillos_db (self st)) (tabla (self st)) (world st)
    = (inl e, w1) →
  sql_to_df (ruta_datos (self st) +:+ tornillos_db (self st)) (tabla (self st)) w1
    = (inr df, w2) →
  run_calls sql_to_df [c; c'] st =
  ([inl e; answer c' df],
   mkState (mkDatos (ruta_datos (self st)) (tornillos_db (self st)) (tabla (self st)) (Some df))
           w2
           (loads st ++ [(ruta_datos (self st) +:+ tornillos_db (self st), tabla (self st));
                         (ruta_datos (self st) +:+ tornillos_db (self st), tabla (self st))])).
Proof.
  intros Hc Hs1 Hs2. simpl.
  rewrite run_call_eq, (load_fresh_raises _ _ _ Hc Hs1).
  set (st1 := mkState (self st) w1 _).
  rewrite run_call_eq, (load_fresh_returns st1 df w2 Hc Hs2). simpl.
  by rewrite <- app_assoc.
Qed.

(** ** A table without the columns, or without rows *)

(** X4: when the loaded table has no column 'Métrica', [metricas] and
    both scalar lookups raise [KeyError] for that column, whatever the
    key and the other columns; the table is in the cache all the same. *)
Theorem missing_key_column_raises_KeyError st df st1 :
  _load_dataframe sql_to_df st = (inr df, st1) →
  data df !! "Métrica" = None →
  metricas sql_to_df st = (inl (KeyError "Métrica"), st1) ∧
  (∀ metrica, diametro_nominal sql_to_df metrica st = (inl (KeyError "Métrica"), st1) ∧
              tamano_llave sql_to_df metrica st = (inl (KeyError "Métrica"), st1)) ∧
  _df_cache (self st1) = Some df.
Proof.
  intros Hl Hk. split_and!.
  - rewrite metricas_eq, Hl. unfold getitem. by rewrite Hk.
  - intros metrica. rewrite diametro_nominal_eq, tamano_llave_eq, Hl.
    by rewrite !(loc_item_no_key_column _ _ _ Hk).
  - by apply load_returns in Hl as (? & _).
Qed.

(** X5: when the key column is there and a value column is not, the list
    accessor and the scalar lookup of that column raise [KeyError] for
    it; the lookup does so for every key, also for one that matches no
    row or several. The accessors of the other column are not touched. *)
Theorem missing_value_column_raises_KeyError st df st1 ms :
  _load_dataframe sql_to_df st = (inr df, st1) →
  data df !! "Métrica" = Some ms →
  (data df !! "dnom_mm" = None →
     diametros_nominales sql_to_df st = (inl (KeyError "dnom_mm"), st1) ∧
     ∀ metrica, diametro_nominal sql_to_df metrica st = (inl (KeyError "dnom_mm"), st1)) ∧
  (data df !! "s_mm" = None →
     tamanos_llave sql_to_df st = (inl (KeyError "s_mm"), st1) ∧
     ∀ metrica, tamano_llave sql_to_df metrica st = (inl (KeyError "s_mm"), st1)) ∧
  metricas sql_to_df st = (inr ms, st1).
Proof.
  intros Hl Hk. split_and!.
  - intros Hv. split.
    + rewrite diametros_nominales_eq, Hl. unfold getitem. by rewrite Hv.
    + intros metrica. rewrite diametro_nominal_eq, Hl.
      by rewrite (loc_item_no_value_column _ _ _ _ Hk Hv).
  - intros Hv. split.
    + rewrite tamanos_llave_eq, Hl. unfold getitem. by rewrite Hv.
    + intros metrica. rewrite tamano_llave_eq, Hl.
      by rewrite (loc_item_no_value_column _ _ _ _ Hk Hv).
  - rewrite metricas_eq, Hl. unfold getitem. by rewrite Hk.
Qed.

(** X6: on a table with its three columns and no row, the list accessors
    return empty lists and both scalar lookups raise [ValueError] for
    every key. *)
Theorem empty_table_has_no_key st df st1 :
  _load_dataframe sql_to_df st = (inr df, st1) →
  DataFrame_wf df → index_len df = 0 →
  is_Some (data df !! "Métrica") → is_Some (data df !! "dnom_mm") →
  is_Some (data df !! "s_mm") →
  metricas sql_to_df st = (inr [], st1) ∧
  diametros_nominales sql_to_df st = (inr [], st1) ∧
  tamanos_llave sql_to_df st = (inr [], st1) ∧
  (∀ metrica, diametro_nominal sql_to_df metrica st = (inl ValueError, st1) ∧
              tamano_llave sql_to_df metrica st = (inl ValueError, st1)).
Proof.
  intros Hl Hwf H0 [ms Hkm] [ds Hkd] [ss Hks].
  assert (ms = []) as -> by (apply nil_length_inv; by rewrite (Hwf _ _ Hkm)).
  assert (ds = []) as -> by (apply nil_length_inv; by rewrite (Hwf _ _ Hkd)).
  assert (ss = []) as -> by (apply nil_length_inv; by rewrite (Hwf _ _ Hks)).
  rewrite metricas_eq, diametros_nominales_eq, tamanos_llave_eq, Hl.
  unfold getitem. rewrite Hkm, Hkd, Hks. split_and!; try done.
  intros metrica. rewrite diametro_nominal_eq, tamano_llave_eq, Hl.
  by rewrite (loc_item_no_match _ _ _ _ _ Hkm Hkd), (loc_item_no_match _ _ _ _ _ Hkm Hks).
Qed.

(** ** What a lookup that returns tells *)

(** X7: once the three columns have been read, a scalar lookup returns
    exactly when the key matches one row; so [diametro_nominal] returns
    for a key if and only if [tamano_llave] does. *)
Theorem lookup_returns_iff_one_match st st1 st2 st3 ms ds ss metrica :
  (∀ df, _df_cache (self st3) = Some df → DataFrame_wf df) →
  metricas sql_to_df st = (inr ms, st1) →
  diametros_nominales sql_to_df st1 = (inr ds, st2) →
  tamanos_llave sql_to_df st2 = (inr ss, st3) →
  ((∃ d, diametro_nominal sql_to_df metrica st3 = (inr d, st3)) ↔ n_matches metrica ms = 1) ∧
  ((∃ s, tamano_llave sql_to_df metrica st3 = (inr s, st3)) ↔ n_matches metrica ms = 1).
Proof.
  intros Hwf Hm Hd Hs.
  destruct (columns_read _ _ _ _ _ _ _ _ Hm Hd Hs) as (-> & -> & df & Hc & Hkm & Hkd & Hks & _).
  specialize (Hwf _ Hc).
  rewrite diametro_nominal_eq, tamano_llave_eq, (load_cached _ _ _ Hc).
  split; split.
  - intros [d [= Hd']]. by eapply loc_item_inr_inv in Hd' as [? _].
  - intros Hn.
    destruct (loc_item df metrica "dnom_mm") as [e|d] eqn:E; [| eauto].
    assert (Hlen : length (select (series_eq ms metrica) ds) = 1).
    { rewrite length_select; [done |]. by rewrite (Hwf _ _ Hkm), (Hwf _ _ Hkd). }
    rewrite (loc_item_eq _ _ _ _ _ Hkm Hkd) in E.
    destruct (select (series_eq ms metrica) ds) as [|x [|y l]]; simpl in *; done.
  - intros [d [= Hd']]. by eapply loc_item_inr_inv in Hd' as [? _].
  - intros Hn.
    destruct (loc_item df metrica "s_mm") as [e|d] eqn:E; [| eauto].
    assert (Hlen : length (select (series_eq ms metrica) ss) = 1).
    { rewrite length_select; [done |]. by rewrite (Hwf _ _ Hkm), (Hwf _ _ Hks). }
    rewrite (loc_item_eq _ _ _ _ _ Hkm Hks) in E.
    destruct (select (series_eq ms metrica) ss) as [|x [|y l]]; simpl in *; done.
Qed.

(** X8: a value a scalar lookup returns is the cell of a row whose key
    is the one asked for: there is an index where [metricas()] holds the
    key and the column list holds the value. *)
Theorem returned_value_is_in_the_row_of_the_key st st1 st2 st3 ms ds ss metrica :
  (∀ df, _df_cache (self st3) = Some df → DataFrame_wf df) →
  metricas sql_to_df st = (inr ms, st1) →
  diametros_nominales sql_to_df st1 = (inr ds, st2) →
  tamanos_llave sql_to_df st2 = (inr ss, st3) →
  (∀ d st4, diametro_nominal sql_to_df metrica st3 = (inr d, st4) →
     st4 = st3 ∧ ∃ i, ms !! i = Some (Str metrica) ∧ ds !! i = Some d) ∧
  (∀ s st4, tamano_llave sql_to_df metrica st3 = (inr s, st4) →
     st4 = st3 ∧ ∃ i, ms !! i = Some (Str metrica) ∧ ss !! i = Some s).
Proof.
  intros Hwf Hm Hd Hs.
  destruct (columns_read _ _ _ _ _ _ _ _ Hm Hd Hs) as (-> & -> & df & Hc & Hkm & Hkd & Hks & _).
  specialize (Hwf _ Hc).
  rewrite diametro_nominal_eq, tamano_llave_eq, (load_cached _ _ _ Hc).
  split; intros v st4 [= Hv <-]; (split; [done |]);
    by eapply loc_item_inr_inv in Hv as [_ ?].
Qed.

(** X9: when no cell of the key column is repeated, every key that
    [metricas()] lists can be looked up, and the lookups return the
    entries of [diametros_nominales()] and [tamanos_llave()] at the
    index of the key. *)
Theorem unique_keys_are_all_found st st1 st2 st3 ms ds ss :
  (∀ df, _df_cache (self st3) = Some df → DataFrame_wf df) →
  metricas sql_to_df st = (inr ms, st1) →
  diametros_nominales sql_to_df st1 = (inr ds, st2) →
  tamanos_llave sql_to_df st2 = (inr ss, st3) →
  NoDup ms →
  ∀ i metrica, ms !! i = Some (Str metrica) →
    ∃ d s, ds !! i = Some d ∧ ss !! i = Some s ∧
           diametro_nominal sql_to_df metrica st3 = (inr d, st3) ∧
           tamano_llave sql_to_df metrica st3 = (inr s, st3).
Proof.
  intros Hwf Hm Hd Hs Hnd i metrica Hi.
  destruct (columns_read _ _ _ _ _ _ _ _ Hm Hd Hs) as (-> & -> & df & Hc & Hkm & Hkd & Hks & _).
  specialize (Hwf _ Hc).
  pose proof (n_matches_NoDup _ _ _ Hnd Hi) as Hn.
  assert (Hlt : i < length ms) by (eapply lookup_lt_Some; eauto).
  destruct (lookup_lt_is_Some_2 ds i) as [d Hdi]; [by rewrite (Hwf _ _ Hkd), <- (Hwf _ _ Hkm) |].
  destruct (lookup_lt_is_Some_2 ss i) as [v Hvi]; [by rewrite (Hwf _ _ Hks), <- (Hwf _ _ Hkm) |].
  exists d, v. rewrite diametro_nominal_eq, tamano_llave_eq, (load_cached _ _ _ Hc).
  by rewrite (loc_item_unique _ _ _ _ _ _ _ Hkm Hkd Hn Hi Hdi),
    (loc_item_unique _ _ _ _ _ _ _ Hkm Hks Hn Hi Hvi).
Qed.

(** ** Loads counted *)

(** X11: a call reaches the loader at most once. After any sequence of
    calls the log has gained at most one entry per call, each for the
    store location and the table of the instance. *)
Theorem at_most_one_load_per_call cs st :
  ∃ n, (n ≤ length cs)%nat ∧
       loads (run_calls sql_to_df cs st).2 =
       loads st ++ replicate n (ruta_datos (self st) +:+ tornillos_db (self st), tabla (self st)).
Proof.
  revert st. induction cs as [|c cs IH]; intros st; simpl.
  - exists 0. by rewrite app_nil_r.
  - pose proof (run_call_loads sql_to_df c st) as Hc. simpl in Hc.
    destruct (run_call sql_to_df c st) as [r st1]. destruct (IH st1) as (n & Hn & Hlog).
    destruct (run_calls sql_to_df cs st1) as [rs st2]. simpl in *.
    assert (ruta_datos (self st1) = ruta_datos (self st) ∧
            tornillos_db (self st1) = tornillos_db (self st) ∧
            tabla (self st1) = tabla (self st)) as (Hr1 & Ht1 & Hb1).
    { destruct Hc as [(-> & _)|(? & ? & ? & _)]; done. }
    rewrite Hr1, Ht1, Hb1 in Hlog.
    assert (∃ k, (k ≤ 1)%nat ∧ loads st1 = loads st ++
              replicate k (ruta_datos (self st) +:+ tornillos_db (self st), tabla (self st)))
      as (k & Hk & Hlog1).
    { destruct Hc as [(_ & _ & Hl)|(_ & _ & _ & _ & Hl)].
      - exists 1. by split; [lia |].
      - destruct (_df_cache (self st)); [exists 0 | exists 1]; (split; [lia |]);
          [by rewrite app_nil_r | done]. }
    exists (k + n). split; [lia |].
    by rewrite Hlog, Hlog1, <- app_assoc, replicate_add.
Qed.

(** ** The script at the end of the module *)

(** X12: run on a database whose table has the three columns, the script
    gets the three columns of the table as the loader returned it, all
    of the length of the first, and has asked the loader once, for
    'tornillos.db' under the data directory and table 'tamano_llaves'. *)
Theorem main_script_reads_three_columns_off_one_load Paths_data (w w' : World) df ms ds ss :
  sql_to_df ((Paths_data +:+ "\") +:+ "tornillos.db") "tamano_llaves" w = (inr df, w') →
  DataFrame_wf df →
  data df !! "Métrica" = Some ms → data df !! "dnom_mm" = Some ds →
  data df !! "s_mm" = Some ss →
  main_columns sql_to_df (mkState (__init__ Paths_data) w []) =
  (inr (ms, ds, ss),
   mkState (mkDatos (Paths_data +:+ "\") "tornillos.db" "tamano_llaves" (Some df)) w'
           [((Paths_data +:+ "\") +:+ "tornillos.db", "tamano_llaves")]) ∧
  length ds = length ms ∧ length ss = length ms.
Proof.
  intros Hs Hwf Hkm Hkd Hks.
  split_and!; [| by rewrite (Hwf _ _ Hkd), (Hwf _ _ Hkm) | by rewrite (Hwf _ _ Hks), (Hwf _ _ Hkm)].
  unfold main_columns, mbind, M_bind at 1.
  rewrite metricas_eq, (load_fresh_returns (mkState (__init__ Paths_data) w []) df w' eq_refl Hs).
  simpl. set (st1 := mkState _ w' _).
  assert (Hc : _df_cache (self st1) = Some df) by done.
  unfold getitem at 1. rewrite Hkm. unfold M_bind at 1.
  rewrite diametros_nominales_eq, (load_cached _ _ _ Hc).
  unfold getitem at 1. rewrite Hkd. unfold M_bind at 1.
  rewrite tamanos_llave_eq, (load_cached _ _ _ Hc).
  unfold getitem at 1. by rewrite Hks.
Qed.

(** X13: when the loader raises, the script ends with that exception at
    its first accessor: the loader has been asked once and no more. *)
Theorem main_script_stops_at_loader_exception Paths_data (w w' : World) e :
  sql_to_df ((Paths_data +:+ "\") +:+ "tornillos.db") "tamano_llaves" w = (inl e, w') →
  main_columns sql_to_df (mkState (__init__ Paths_data) w []) =
  (inl e, mkState (__init__ Paths_data) w'
            [((Paths_data +:+ "\") +:+ "tornillos.db", "tamano_llaves")]).
Proof.
  intros Hs. unfold main_columns, mbind, M_bind at 1.
  by rewrite metricas_eq, (load_fresh_raises (mkState (__init__ Paths_data) w []) e w' eq_refl Hs).
Qed.

End MoreProperties.

(** ** The cache against the disk *)

(** X14: an instance whose slot is filled answers every sequence of calls
    from the cached table alone: two runs with the same cached table give
    the same results, whatever the two loaders would return and whatever
    is on the two disks. What the database holds after the first load is
    never seen. *)
Theorem cached_answers_ignore_the_disk {W1 W2 : Type}
    (sql1 : string → string → W1 → (exn + DataFrame) * W1)
    (sql2 : string → string → W2 → (exn + DataFrame) * W2)
    (me1 me2 : DatosTamanoLlaves) (df : DataFrame) (w1 : W1) (w2 : W2)
    (log1 log2 : list (string * string)) (cs : list call) :
  _df_cache me1 = Some df → _df_cache me2 = Some df →
  (run_calls sql1 cs (mkState me1 w1 log1)).1 = (run_calls sql2 cs (mkState me2 w2 log2)).1.
Proof.
  intros H1 H2.
  by rewrite (run_calls_cached sql1 cs (mkState me1 w1 log1) df H1),
    (run_calls_cached sql2 cs (mkState me2 w2 log2) df H2).
Qed.

(** ** Concrete runs, continued *)

(** The sample disk has no database under D:\datos. *)
Lemma loader_exception_reaches_the_caller_witness :
  metricas sample_sql_to_df (mkState (__init__ "D:\datos") sample_df [])
  = (inl (Raise "DatabaseError" "tamano_llaves"),
     mkState (__init__ "D:\datos") sample_df [("D:\datos\tornillos.db", "tamano_llaves")]) ∧
  ∀ metrica,
    diametro_nominal sample_sql_to_df metrica (mkState (__init__ "D:\datos") sample_df [])
    = (inl (Raise "DatabaseError" "tamano_llaves"),
       mkState (__init__ "D:\datos") sample_df [("D:\datos\tornillos.db", "tamano_llaves")]).
Proof.
  pose proof (loader_exception_reaches_the_caller sample_sql_to_df
                (mkState (__init__ "D:\datos") sample_df [])
                (Raise "DatabaseError" "tamano_llaves") sample_df eq_refl eq_refl)
    as (Hm & _ & _ & Hd & _).
  split; [exact Hm | intros metrica; exact (proj1 (Hd metrica))].
Defined.

Lemma failing_loader_is_asked_on_every_call_witness :
  loads (run_calls sample_sql_to_df [Metricas; TamanoLlave "M8"; Metricas]
           (mkState (__init__ "D:\datos") sample_df [])).2
  = [("D:\datos\tornillos.db", "tamano_llaves");
     ("D:\datos\tornillos.db", "tamano_llaves");
     ("D:\datos\tornillos.db", "tamano_llaves")].
Proof.
  refine (proj1 (proj2 (failing_loader_is_asked_on_every_call sample_sql_to_df
            [Metricas; TamanoLlave "M8"; Metricas]
            (mkState (__init__ "D:\datos") sample_df []) eq_refl _))).
  intros w. exists (Raise "DatabaseError" "tamano_llaves"), w. vm_compute; reflexivity.
Defined.

(** The database is locked at the first read and free at the second. *)
Lemma load_is_tried_again_after_a_failure_witness :
  run_calls scripted_sql_to_df [Metricas; DiametroNominal "M8"]
    (mkState (__init__ "C:\datos")
             [inl (Raise "OperationalError" "database is locked"); inr sample_df] [])
  = ([inl (Raise "OperationalError" "database is locked"); inr (PScalar (Float 8))],
     mkState (mkDatos "C:\datos\" "tornillos.db" "tamano_llaves" (Some sample_df)) []
             [("C:\datos\tornillos.db", "tamano_llaves");
              ("C:\datos\tornillos.db", "tamano_llaves")]).
Proof.
  apply (load_is_tried_again_after_a_failure scripted_sql_to_df
           Metricas (DiametroNominal "M8")
           (mkState (__init__ "C:\datos")
              [inl (Raise "OperationalError" "database is locked"); inr sample_df] [])
           (Raise "OperationalError" "database is locked") [inr sample_df] sample_df []);
    reflexivity.
Defined.

Lemma missing_key_column_raises_KeyError_witness :
  metricas sample_sql_to_df (sample_init keyless_df)
    = (inl (KeyError "Métrica"), sample_loaded keyless_df) ∧
  (∀ metrica,
     diametro_nominal sample_sql_to_df metrica (sample_init keyless_df)
       = (inl (KeyError "Métrica"), sample_loaded keyless_df) ∧
     tamano_llave sample_sql_to_df metrica (sample_init keyless_df)
       = (inl (KeyError "Métrica"), sample_loaded keyless_df)) ∧
  _df_cache (self (sample_loaded keyless_df)) = Some keyless_df.
Proof.
  apply (missing_key_column_raises_KeyError sample_sql_to_df
           (sample_init keyless_df) keyless_df (sample_loaded keyless_df));
    vm_compute; reflexivity.
Defined.

Lemma missing_value_column_raises_KeyError_witness :
  diametros_nominales sample_sql_to_df (sample_init keys_only_df)
    = (inl (KeyError "dnom_mm"), sample_loaded keys_only_df) ∧
  ∀ metrica, diametro_nominal sample_sql_to_df metrica (sample_init keys_only_df)
    = (inl (KeyError "dnom_mm"), sample_loaded keys_only_df).
Proof.
  refine (proj1 (missing_value_column_raises_KeyError sample_sql_to_df
            (sample_init keys_only_df) keys_only_df (sample_loaded keys_only_df)
            [Str "M5"; Str "M6"] _ _) _); vm_compute; reflexivity.
Defined.

Lemma empty_table_has_no_key_witness :
  metricas sample_sql_to_df (sample_init (frame_of [] [] []))
    = (inr [], sample_loaded (frame_of [] [] [])) ∧
  diametros_nominales sample_sql_to_df (sample_init (frame_of [] [] []))
    = (inr [], sample_loaded (frame_of [] [] [])) ∧
  tamanos_llave sample_sql_to_df (sample_init (frame_of [] [] []))
    = (inr [], sample_loaded (frame_of [] [] [])) ∧
  (∀ metrica,
     diametro_nominal sample_sql_to_df metrica (sample_init (frame_of [] [] []))
       = (inl ValueError, sample_loaded (frame_of [] [] [])) ∧
     tamano_llave sample_sql_to_df metrica (sample_init (frame_of [] [] []))
       = (inl ValueError, sample_loaded (frame_of [] [] []))).
Proof.
  apply (empty_table_has_no_key sample_sql_to_df
           (sample_init (frame_of [] [] [])) (frame_of [] [] [])
           (sample_loaded (frame_of [] [] []))).
  - vm_compute; reflexivity.
  - by apply frame_of_wf.
  - reflexivity.
  - exists []. vm_compute; reflexivity.
  - exists []. vm_compute; reflexivity.
  - exists []. vm_compute; reflexivity.
Defined.

(** On the sample table M8 matches one row and M999 none. *)
Lemma lookup_returns_iff_one_match_witness :
  ((∃ d, diametro_nominal sample_sql_to_df "M8" (sample_loaded sample_df)
          = (inr d, sample_loaded sample_df))
   ↔ n_matches "M8" [Str "M5"; Str "M6"; Str "M7"; Str "M8"] = 1) ∧
  ((∃ s, tamano_llave sample_sql_to_df "M8" (sample_loaded sample_df)
          = (inr s, sample_loaded sample_df))
   ↔ n_matches "M8" [Str "M5"; Str "M6"; Str "M7"; Str "M8"] = 1).
Proof.
  apply (lookup_returns_iff_one_match sample_sql_to_df
           (sample_init sample_df) (sample_loaded sample_df)
           (sample_loaded sample_df) (sample_loaded sample_df)
           [Str "M5"; Str "M6"; Str "M7"; Str "M8"]
           [Float 5; Float 6; Float 7; Float 8]
           [Float 8; Float 10; Float 0; Float 13] "M8").
  - apply sample_cache_wf, sample_df_wf.
  - vm_compute; reflexivity.
  - vm_compute; reflexivity.
  - vm_compute; reflexivity.
Defined.

Lemma returned_value_is_in_the_row_of_the_key_witness :
  ∃ i, [Str "M5"; Str "M6"; Str "M7"; Str "M8"] !! i = Some (Str "M6") ∧
       [Float 5; Float 6; Float 7; Float 8] !! i = Some (Float 6).
Proof.
  refine (proj2 (proj1 (returned_value_is_in_the_row_of_the_key sample_sql_to_df
            (sample_init sample_df) (sample_loaded sample_df)
            (sample_loaded sample_df) (sample_loaded sample_df)
            [Str "M5"; Str "M6"; Str "M7"; Str "M8"]
            [Float 5; Float 6; Float 7; Float 8]
            [Float 8; Float 10; Float 0; Float 13] "M6" _ _ _ _)
          (Float 6) (sample_loaded sample_df) _)).
  - apply sample_cache_wf, sample_df_wf.
  - vm_compute; reflexivity.
  - vm_compute; reflexivity.
  - vm_compute; reflexivity.
  - vm_compute; reflexivity.
Defined.

(** The keys of the sample table are all different; M7 is at index 2. *)
Lemma unique_keys_are_all_found_witness :
  ∃ d s, [Float 5; Float 6; Float 7; Float 8] !! 2 = Some d ∧
         [Float 8; Float 10; Float 0; Float 13] !! 2 = Some s ∧
         diametro_nominal sample_sql_to_df "M7" (sample_loaded sample_df)
           = (inr d, sample_loaded sample_df) ∧
         tamano_llave sample_sql_to_df "M7" (sample_loaded sample_df)
           = (inr s, sample_loaded sample_df).
Proof.
  apply (unique_keys_are_all_found sample_sql_to_df
           (sample_init sample_df) (sample_loaded sample_df)
           (sample_loaded sample_df) (sample_loaded sample_df)
           [Str "M5"; Str "M6"; Str "M7"; Str "M8"]
           [Float 5; Float 6; Float 7; Float 8]
           [Float 8; Float 10; Float 0; Float 13]).
  - apply sample_cache_wf, sample_df_wf.
  - vm_compute; reflexivity.
  - vm_compute; reflexivity.
  - vm_compute; reflexivity.
  - repeat (apply NoDup_cons_2;
            [intros H; repeat (apply elem_of_cons in H as [H|H]; [discriminate H |]);
             by apply elem_of_nil in H |]).
    apply NoDup_nil_2.
  - reflexivity.
Defined.

Lemma main_script_reads_three_columns_off_one_load_witness :
  main_columns sample_sql_to_df (mkState (__init__ "C:\datos") sample_df [])
  = (inr ([Str "M5"; Str "M6"; Str "M7"; Str "M8"],
          [Float 5; Float 6; Float 7; Float 8],
          [Float 8; Float 10; Float 0; Float 13]),
     sample_loaded sample_df) ∧
  length [Float 5; Float 6; Float 7; Float 8] = length [Str "M5"; Str "M6"; Str "M7"; Str "M8"] ∧
  length [Float 8; Float 10; Float 0; Float 13] = length [Str "M5"; Str "M6"; Str "M7"; Str "M8"].
Proof.
  apply (main_script_reads_three_columns_off_one_load sample_sql_to_df
           "C:\datos" sample_df sample_df sample_df).
  - vm_compute; reflexivity.
  - apply sample_df_wf.
  - vm_compute; reflexivity.
  - vm_compute; reflexivity.
  - vm_compute; reflexivity.
Defined.

Lemma main_script_stops_at_loader_exception_witness :
  main_columns sample_sql_to_df (mkState (__init__ "D:\datos") sample_df [])
  = (inl (Raise "DatabaseError" "tamano_llaves"),
     mkState (__init__ "D:\datos") sample_df [("D:\datos\tornillos.db", "tamano_llaves")]).
Proof.
  apply (main_script_stops_at_loader_exception sample_sql_to_df "D:\datos" sample_df sample_df).
  vm_compute; reflexivity.
Defined.

(** The same cached table, once over a disk that now holds another
    table, once over a loader that would only raise. *)
Lemma cached_answers_ignore_the_disk_witness :
  (run_calls sample_sql_to_df [Metricas; TamanoLlave "M7"; DiametroNominal "M9"]
     (mkState (mkDatos "C:\datos\" "tornillos.db" "tamano_llaves" (Some sample_df))
              duplicated_df [])).1
  = (run_calls scripted_sql_to_df [Metricas; TamanoLlave "M7"; DiametroNominal "M9"]
       (mkState (mkDatos "C:\datos\" "tornillos.db" "tamano_llaves" (Some sample_df))
                [] [])).1.
Proof.
  apply (cached_answers_ignore_the_disk sample_sql_to_df scripted_sql_to_df
           (mkDatos "C:\datos\" "tornillos.db" "tamano_llaves" (Some sample_df))
           (mkDatos "C:\datos\" "tornillos.db" "tamano_llaves" (Some sample_df))
           sample_df); reflexivity.
Defined.
